(** * The DMG background generator (scripts/create-dmg-background.py)

    A shallow embedding of the script and of the library calls it makes,
    followed by the properties of the generated image, of the font
    fallback, of the text placement and of the process exit status.

    The script has no input of its own: what varies from one run to the
    next is its environment.  Two parts of it are modelled.
    - [Env] holds what the Python side answers: whether [from PIL import]
      raises, whether each font-loading call raises, and what a font
      measures for a text.
    - [World] holds what the script can change: the file system (a finite
      map from paths to nodes) and the lines written to standard output.

    Library calls are modelled by their documented behaviour on the
    arguments the script passes.  The working directory is taken to exist
    and to be writable, and measuring or painting a text with a font that
    was loaded is taken to succeed, and so is printing a line (standard
    output takes every character of it); the calls that can raise are the
    import, the font loading, [os.makedirs] and [img.save]. *)

From Stdlib Require Import ZArith Lia Ascii String.
From stdpp Require Import base option list gmap strings pretty.

Local Open Scope Z_scope.
Local Open Scope string_scope.

(** ** Exceptions and the execution monad *)

(** The exception classes the script can meet.  [SystemExit] carries the
    status passed to [exit]. *)
Inductive exn : Type :=
  | ImportError
  | ModuleNotFoundError
  | OSError
  | FileExistsError
  | FileNotFoundError
  | NotADirectoryError
  | IsADirectoryError
  | ValueError
  | MemoryError
  | NameError
  | KeyboardInterrupt
  | SystemExit (code : Z).

(** [isinstance(e, ImportError)]: the class itself and its subclass. *)
Definition is_ImportError (e : exn) : bool :=
  match e with
  | ImportError | ModuleNotFoundError => true
  | _ => false
  end.

(** A bare [except:] clause catches every exception. *)
Definition any_exception (e : exn) : bool := true.

Inductive Res (A : Type) : Type :=
  | Ok (a : A)
  | Raise (e : exn).
Arguments Ok {A} a.
Arguments Raise {A} e.

(** A statement runs on a state and either completes with a value or
    raises; in both cases the state reached so far is kept (Python does
    not roll assignments back when an exception unwinds). *)
Definition M (S A : Type) : Type := S -> Res A * S.

#[global] Instance M_ret {S} : MRet (M S) :=
  fun A a s => (Ok a, s).

#[global] Instance M_bind {S} : MBind (M S) :=
  fun A B f m s =>
    match m s with
    | (Ok a, s') => f a s'
    | (Raise e, s') => (Raise e, s')
    end.

Definition raise {S A} (e : exn) : M S A := fun s => (Raise e, s).

(** [try: body except <catches>: handler]. *)
Definition try_except {S A} (body : M S A) (catches : exn -> bool)
    (handler : M S A) : M S A :=
  fun s =>
    match body s with
    | (Ok a, s') => (Ok a, s')
    | (Raise e, s') => if catches e then handler s' else (Raise e, s')
    end.

(** ** Fonts, images and files *)

(** A font handle records the call that produced it:
    [ImageFont.truetype(path, size)] (the face [index] is the library's
    default, 0, since the script passes none) or
    [ImageFont.load_default()]. *)
Inductive Font : Type :=
  | FreeTypeFont (path : string) (pt : Z) (index : Z)
  | DefaultFont.

(** The values the two font variables can hold. *)
Inductive Value : Type :=
  | PyNone
  | PyFont (f : Font).

(** Truth value of an object in a condition: [None] is false; the font
    classes define neither [__bool__] nor [__len__], so a font is true. *)
Definition truthy (v : Value) : bool :=
  match v with
  | PyNone => false
  | PyFont _ => true
  end.

(** One [draw.text(xy, text, fill=..., font=...)] call. *)
Record TextOp : Type := mkTextOp {
  t_xy : Z * Z;
  t_text : string;
  t_fill : string;
  t_font : Font
}.

(** An image: its mode, its size, the colour it was filled with and the
    text painted on it so far, oldest first (later text lies on top). *)
Record Image : Type := mkImage {
  im_mode : string;
  im_size : Z * Z;
  im_color : string;
  im_texts : list TextOp
}.

(** [Image.new(mode, size, color=...)] *)
Definition Image_new (mode : string) (size : Z * Z) (color : string) : Image :=
  mkImage mode size color [].

(** A node of the file system: a directory, an image file with the format
    it was encoded in and the image it holds, or any other regular file. *)
Inductive Node : Type :=
  | Dir
  | File (format : string) (content : Image)
  | Other.

Definition is_dir (n : Node) : bool :=
  match n with
  | Dir => true
  | _ => false
  end.

Record World : Type := mkWorld {
  fs : gmap string Node;
  stdout : list string
}.

(** What the environment answers to the script. *)
Record Env : Type := mkEnv {
  (** the exception raised by [from PIL import Image, ImageDraw, ImageFont],
      [None] when the import succeeds *)
  import_PIL : option exn;
  (** the exception raised by [ImageFont.truetype(path, size)], if any *)
  truetype_raises : string -> Z -> option exn;
  (** the exception raised by the n-th call of [ImageFont.load_default()]
      (counted from 0), if any *)
  load_default_raises : nat -> option exn;
  (** the box (left, top, right, bottom) of a text set in a font with its
      anchor at the origin *)
  measure : Font -> string -> Z * Z * Z * Z
}.

(** ** Library calls *)

(** [print(line)] *)
Definition print (line : string) : M World unit :=
  fun w => (Ok tt, mkWorld (fs w) (stdout w ++ [line])).

(** [exit(code)] raises [SystemExit]. *)
Definition exit_ {S A} (code : Z) : M S A := raise (SystemExit code).

Definition ImageFont_truetype {S} (E : Env) (font : string) (size : Z) : M S Font :=
  match truetype_raises E font size with
  | None => mret (FreeTypeFont font size 0)
  | Some e => raise e
  end.

Definition ImageFont_load_default {S} (E : Env) (nth : nat) : M S Font :=
  match load_default_raises E nth with
  | None => mret DefaultFont
  | Some e => raise e
  end.

(** [os.makedirs(name, exist_ok=...)] for a name without separator, as the
    script passes: no parent has to be created, and [mkdir] fails with
    [FileExistsError] on an existing path; that error is dropped only when
    [exist_ok] is set and the path is a directory. *)
Definition os_makedirs (name : string) (exist_ok : bool) : M World unit :=
  fun w =>
    match fs w !! name with
    | None => (Ok tt, mkWorld (<[name := Dir]> (fs w)) (stdout w))
    | Some n =>
        if exist_ok && is_dir n then (Ok tt, w) else (Raise FileExistsError, w)
    end.

Fixpoint has_sep (p : string) : bool :=
  match p with
  | EmptyString => false
  | String c r => if Ascii.eqb c "/"%char then true else has_sep r
  end.

(** The part of a relative path before its last separator, empty when it
    has none. *)
Fixpoint dirname (p : string) : string :=
  match p with
  | EmptyString => EmptyString
  | String c r => if has_sep r then String c (dirname r) else EmptyString
  end.

(** Opening [fp] for writing: the file [fp] names must lie in an existing
    directory and must not itself be a directory. *)
Definition open_for_writing (fp : string) (w : World) : option exn :=
  let parent :=
    if String.eqb (dirname fp) "" then Some Dir else fs w !! dirname fp in
  match parent with
  | None => Some FileNotFoundError
  | Some Dir =>
      match fs w !! fp with
      | Some Dir => Some IsADirectoryError
      | _ => None
      end
  | Some _ => Some NotADirectoryError
  end.

(** [img.save(fp, format, quality=...)]: opens [fp] and writes the image in
    the given format, replacing what the file held.  The PNG writer has no
    use for [quality]. *)
Definition Image_save (im : Image) (fp format : string) (quality : Z) : M World unit :=
  fun w =>
    match open_for_writing fp w with
    | Some e => (Raise e, w)
    | None => (Ok tt, mkWorld (<[fp := File format im]> (fs w)) (stdout w))
    end.

(** ** The local variables of [create_dmg_background] *)

(** [None] in a field means the name is not bound yet.  [draw] is a view on
    [img]: what it paints lands in [img]. *)
Record Frame : Type := mkFrame {
  img : option Image;
  font_large : option Value;
  font_small : option Value
}.

Definition new_frame : Frame := mkFrame None None None.

(** A statement of the function body runs on its frame and on the world. *)
Definition in_world {A} (m : M World A) : M (Frame * World) A :=
  fun s =>
    match m (snd s) with
    | (r, w') => (r, (fst s, w'))
    end.

Definition set_img (im : Image) : M (Frame * World) unit :=
  fun s => (Ok tt, (mkFrame (Some im) (font_large (fst s)) (font_small (fst s)), snd s)).

Definition set_font_large (v : Value) : M (Frame * World) unit :=
  fun s => (Ok tt, (mkFrame (img (fst s)) (Some v) (font_small (fst s)), snd s)).

Definition set_font_small (v : Value) : M (Frame * World) unit :=
  fun s => (Ok tt, (mkFrame (img (fst s)) (font_large (fst s)) (Some v), snd s)).

(** Reading a local name; an unbound one raises (UnboundLocalError is a
    NameError). *)
Definition load {A} (name : Frame -> option A) : M (Frame * World) A :=
  fun s =>
    match name (fst s) with
    | Some a => (Ok a, s)
    | None => (Raise NameError, s)
    end.

(** The font a drawing call uses for its [font] argument; given [None],
    the library takes its default font. *)
Definition font_of (v : Value) : Font :=
  match v with
  | PyFont f => f
  | PyNone => DefaultFont
  end.

Definition bbox_left (b : Z * Z * Z * Z) : Z := fst (fst (fst b)).
Definition bbox_right (b : Z * Z * Z * Z) : Z := snd (fst b).

(** [draw.textbbox(xy, text, font=...)] *)
Definition draw_textbbox (E : Env) (xy : Z * Z) (text : string) (font : Value)
    : Z * Z * Z * Z :=
  match measure E (font_of font) text with
  | (l, t, r, b) => (fst xy + l, snd xy + t, fst xy + r, snd xy + b)
  end.

(** [draw.text(xy, text, fill=..., font=...)] *)
Definition draw_text (xy : Z * Z) (text fill : string) (font : Value)
    : M (Frame * World) unit :=
  im ← load img;
  set_img (mkImage (im_mode im) (im_size im) (im_color im)
             (im_texts im ++ [mkTextOp xy text fill (font_of font)])).

(** ** The script *)

Definition helvetica : string := "/System/Library/Fonts/Helvetica.ttc".

(** Lines 23-34: the nested [try]/[except] that binds the two font names. *)
Definition load_fonts (E : Env) : M (Frame * World) unit :=
  try_except
    (f ← ImageFont_truetype E helvetica 24;
     set_font_large (PyFont f);;
     f ← ImageFont_truetype E helvetica 16;
     set_font_small (PyFont f))
    any_exception
    (try_except
       (f ← ImageFont_load_default E 0;
        set_font_large (PyFont f);;
        f ← ImageFont_load_default E 1;
        set_font_small (PyFont f))
       any_exception
       (set_font_large PyNone;;
        set_font_small PyNone)).

Definition text1 : string := "Drag VTSApp to Applications".
Definition text2 : string :=
  "Install VTS by dragging the app to the Applications folder".
Definition output_path : string := "scripts/dmg-background.png".

(** Lines 37-57: [if font_large and font_small:] and the four drawing
    calls.  [a and b] is [a] when [a] is false and [b] otherwise; [//] is
    the floor division, as [Z.div]. *)
Definition add_text (E : Env) (width height : Z) : M (Frame * World) unit :=
  a ← load font_large;
  c ← (if truthy a then load font_small else mret a);
  if truthy c then
    font_large ← load font_large;
    font_small ← load font_small;
    let text1_bbox := draw_textbbox E (0, 0) text1 font_large in
    let text1_width := bbox_right text1_bbox - bbox_left text1_bbox in
    let text1_x := (width - text1_width) / 2 in
    let text1_y := height - 120 in
    draw_text (text1_x + 1, text1_y + 1) text1 "#cccccc" font_large;;
    draw_text (text1_x, text1_y) text1 "#333333" font_large;;
    let text2_bbox := draw_textbbox E (0, 0) text2 font_small in
    let text2_width := bbox_right text2_bbox - bbox_left text2_bbox in
    let text2_x := (width - text2_width) / 2 in
    let text2_y := text1_y + 35 in
    draw_text (text2_x + 1, text2_y + 1) text2 "#dddddd" font_small;;
    draw_text (text2_x, text2_y) text2 "#666666" font_small
  else mret tt.

(** Lines 14-65, on the function's frame. *)
Definition create_dmg_background_body (E : Env) : M (Frame * World) string :=
  let width := 800 in
  let height := 450 in
  set_img (Image_new "RGB" (width, height) "#f5f5f7");;
  (* draw = ImageDraw.Draw(img): the drawing calls below paint on img *)
  load_fonts E;;
  add_text E width height;;
  im ← load img;
  in_world (Image_save im output_path "PNG" 95);;
  in_world (print ("✅ DMG background created: " +:+ output_path));;
  in_world (print ("   Size: " +:+ pretty width +:+ "x" +:+ pretty height +:+ " pixels"));;
  mret output_path.

(** A call of the function: a fresh frame, dropped when the call ends. *)
Definition create_dmg_background (E : Env) : M World string :=
  fun w =>
    match create_dmg_background_body E (new_frame, w) with
    | (r, s') => (r, snd s')
    end.

(** Lines 7-12: the guarded imports. *)
Definition imports (E : Env) : M World unit :=
  try_except
    (match import_PIL E with
     | None => mret tt
     | Some e => raise e
     end)
    is_ImportError
    (print "PIL (Pillow) not found. Install with: pip install Pillow";;
     exit_ 1).

(** The module run as a program: lines 7-12, then the [__main__] block of
    lines 67-73. *)
Definition main (E : Env) : M World unit :=
  imports E;;
  os_makedirs "scripts" true;;
  create_dmg_background E;;
  print (String "010"%char "📦 Background is ready for DMG creation!");;
  print "   The background will show installation instructions and an arrow.".

(** The status the interpreter exits with: 0 when the program ran to its
    end, the argument of [exit] when it was called, 1 when an exception
    reached the top level. *)
Definition exit_status {A} (r : Res A) : Z :=
  match r with
  | Ok _ => 0
  | Raise (SystemExit code) => code
  | Raise _ => 1
  end.

(** ** The fallback policy, as the specification words it *)

(** The three tiers of the font resolution policy. *)
Inductive Tier : Type :=
  | SystemFont
  | LibraryDefault
  | NoFont.

(** First success wins: the named system font when both of its sizes
    load, else the library's default font when both of its loads succeed,
    else no font. *)
Definition font_tier (E : Env) : Tier :=
  match truetype_raises E helvetica 24, truetype_raises E helvetica 16 with
  | None, None => SystemFont
  | _, _ =>
      match load_default_raises E 0%nat, load_default_raises E 1%nat with
      | None, None => LibraryDefault
      | _, _ => NoFont
      end
  end.

(** The primary and the secondary font handle of a tier. *)
Definition tier_fonts (t : Tier) : Value * Value :=
  match t with
  | SystemFont =>
      (PyFont (FreeTypeFont helvetica 24 0), PyFont (FreeTypeFont helvetica 16 0))
  | LibraryDefault => (PyFont DefaultFont, PyFont DefaultFont)
  | NoFont => (PyNone, PyNone)
  end.

(** The fonts that are drawn with, by tier. *)
Definition tier_font_pair (t : Tier) : Font * Font :=
  (font_of (fst (tier_fonts t)), font_of (snd (tier_fonts t))).

(** The tier a handle comes from. *)
Definition tier_of (v : Value) : Tier :=
  match v with
  | PyFont (FreeTypeFont _ _ _) => SystemFont
  | PyFont DefaultFont => LibraryDefault
  | PyNone => NoFont
  end.

(** ** What a run leaves behind *)

(** The width the script takes from a measured box. *)
Definition text_width (E : Env) (text : string) (font : Value) : Z :=
  bbox_right (draw_textbbox E (0, 0) text font)
  - bbox_left (draw_textbbox E (0, 0) text font).

(** The four drawing calls of [add_text], in the order they are made. *)
Definition text_ops (E : Env) (width height : Z) (vl vs : Value) : list TextOp :=
  let x1 := (width - text_width E text1 vl) / 2 in
  let y1 := height - 120 in
  let x2 := (width - text_width E text2 vs) / 2 in
  let y2 := y1 + 35 in
  [ mkTextOp (x1 + 1, y1 + 1) text1 "#cccccc" (font_of vl);
    mkTextOp (x1, y1) text1 "#333333" (font_of vl);
    mkTextOp (x2 + 1, y2 + 1) text2 "#dddddd" (font_of vs);
    mkTextOp (x2, y2) text2 "#666666" (font_of vs) ].

Definition paint (im : Image) (ops : list TextOp) : Image :=
  mkImage (im_mode im) (im_size im) (im_color im) (im_texts im ++ ops).

(** The canvas before any text is painted. *)
Definition blank : Image := mkImage "RGB" (800, 450) "#f5f5f7" [].

(** The image [create_dmg_background] hands to the save step. *)
Definition canvas (E : Env) : Image :=
  let fonts := tier_fonts (font_tier E) in
  let fresh := Image_new "RGB" (800, 450) "#f5f5f7" in
  if truthy (fst fonts) && truthy (snd fonts)
  then paint fresh (text_ops E 800 450 (fst fonts) (snd fonts))
  else fresh.

(** The lines the program prints. *)
Definition report : list string :=
  [ "✅ DMG background created: scripts/dmg-background.png";
    "   Size: 800x450 pixels" ].

Definition diagnostic : string :=
  "PIL (Pillow) not found. Install with: pip install Pillow".

Definition farewell : list string :=
  [ String "010"%char "📦 Background is ready for DMG creation!";
    "   The background will show installation instructions and an arrow." ].

(** [name] is taken by something that is not a directory. *)
Definition taken_by_file (w : World) (name : string) : bool :=
  match fs w !! name with
  | Some n => negb (is_dir n)
  | None => false
  end.

(** [name] is a directory. *)
Definition dir_at (w : World) (name : string) : bool :=
  match fs w !! name with
  | Some n => is_dir n
  | None => false
  end.

(** The image the function holds when its call ends, by return or by an
    exception. *)
Definition final_img (E : Env) (w : World) : option Image :=
  img (fst (snd (create_dmg_background_body E (new_frame, w)))).

(** The fonts of the drawing calls made for a text, in drawing order. *)
Definition line_fonts (text : string) (im : Image) : list Font :=
  map t_font (List.filter (fun op => String.eqb (t_text op) text) (im_texts im)).

(** The size the script asked a font to be loaded at; it asks none of the
    library's default font. *)
Definition font_pt (f : Font) : option Z :=
  match f with
  | FreeTypeFont _ pt _ => Some pt
  | DefaultFont => None
  end.

(** The rendered width of a text: right minus left edge of its box. *)
Definition measured_width (E : Env) (f : Font) (text : string) : Z :=
  match measure E f text with
  | (l, _, r, _) => r - l
  end.

(** ** Colours *)

Definition hex_digit (c : ascii) : option Z :=
  let n := Z.of_nat (nat_of_ascii c) in
  if ((48 <=? n) && (n <=? 57))%Z then Some (n - 48)
  else if ((97 <=? n) && (n <=? 102))%Z then Some (n - 87)
  else if ((65 <=? n) && (n <=? 70))%Z then Some (n - 55)
  else None.

Definition hex_byte (hi lo : ascii) : option Z :=
  h ← hex_digit hi; l ← hex_digit lo; Some (16 * h + l).

(** [ImageColor.getrgb] on the [#rrggbb] notation the script uses. *)
Definition getrgb (color : string) : option (Z * Z * Z) :=
  match color with
  | String "#" (String r1 (String r0 (String g1 (String g0
      (String b1 (String b0 EmptyString)))))) =>
      r ← hex_byte r1 r0; g ← hex_byte g1 g0; b ← hex_byte b1 b0;
      Some (r, g, b)
  | _ => None
  end.

(** [a] is a lighter shade than [b]: brighter in every channel. *)
Definition lighter (a b : string) : bool :=
  match getrgb a, getrgb b with
  | Some (r, g, bl), Some (r', g', bl') =>
      ((r' <? r) && (g' <? g) && (bl' <? bl))%Z
  | _, _ => false
  end.

(** The number of drawing calls made for a text. *)
Definition times_drawn (text : string) (im : Image) : nat :=
  length (line_fonts text im).

(** ** Sample environments and file systems *)

Definition sample_measure (f : Font) (text : string) : Z * Z * Z * Z :=
  match f with
  | FreeTypeFont _ pt _ => (1, 5, 1 + Z.of_nat (String.length text) * pt / 2, pt)
  | DefaultFont => (0, 0, Z.of_nat (String.length text) * 6, 11)
  end.

(** A Mac with Pillow: every font loads. *)
Definition E_mac : Env :=
  mkEnv None (fun _ _ => None) (fun _ => None) sample_measure.

(** Pillow without the Helvetica file: [truetype] raises [OSError]. *)
Definition E_no_helvetica : Env :=
  mkEnv None (fun _ _ => Some OSError) (fun _ => None) sample_measure.

(** No font loads at all. *)
Definition E_no_font : Env :=
  mkEnv None (fun _ _ => Some OSError) (fun _ => Some OSError) sample_measure.

(** Pillow is not installed. *)
Definition E_no_pil : Env :=
  mkEnv (Some ModuleNotFoundError) (fun _ _ => None) (fun _ => None) sample_measure.

(** The 24pt load succeeds, the 16pt load fails. *)
Definition E_half_helvetica : Env :=
  mkEnv None (fun _ size => if size =? 16 then Some OSError else None)%Z
    (fun _ => None) sample_measure.

(** No Helvetica, and the second load of the default font is interrupted. *)
Definition E_interrupted : Env :=
  mkEnv None (fun _ _ => Some OSError)
    (fun n => match n with O => None | _ => Some KeyboardInterrupt end)
    sample_measure.

Definition w_empty : World := mkWorld ∅ [].
Definition w_scripts_dir : World := mkWorld {[ "scripts" := Dir ]} [].

(** The box a drawing call covers: the box of its text in its font, moved
    to the position the call was given. *)
Definition drawn_box (E : Env) (op : TextOp) : Z * Z * Z * Z :=
  draw_textbbox E (t_xy op) (t_text op) (PyFont (t_font op)).

(** The import breaks with something that is not an ImportError. *)
Definition E_broken_pil : Env :=
  mkEnv (Some OSError) (fun _ _ => None) (fun _ => None) sample_measure.

(** A font whose boxes start three pixels right of the anchor. *)
Definition E_bearing : Env :=
  mkEnv None (fun _ _ => None) (fun _ => None)
    (fun _ text => (3, 0, 3 + Z.of_nat (String.length text) * 10, 20)).

(** A font so wide that the second line exceeds the canvas. *)
Definition E_wide : Env :=
  mkEnv None (fun _ _ => None) (fun _ => None)
    (fun _ text => (0, 0, Z.of_nat (String.length text) * 20, 20)).

(** The project directory after an earlier run, with a file next to
    [scripts]. *)
Definition w_project : World :=
  mkWorld (<["README.md" := Other]>
             (<[output_path := File "PNG" blank]> {[ "scripts" := Dir ]}))
    ["earlier line"].

(** ** Sample runs *)

Example dirname_nested : dirname "build/scripts/dmg-background.png" = "build/scripts".
Proof. reflexivity. Qed.

Example dirname_flat : dirname "scripts" = "".
Proof. reflexivity. Qed.

Example shadow_colour : getrgb "#cccccc" = Some (204, 204, 204).
Proof. reflexivity. Qed.

Example run_on_mac :
  fst (main E_mac w_empty) = Ok tt
  /\ stdout (snd (main E_mac w_empty)) = (report ++ farewell)%list
  /\ fs (snd (main E_mac w_empty)) !! "scripts" = Some Dir.
Proof. repeat split; vm_compute; reflexivity. Qed.

Example run_without_pillow :
  main E_no_pil w_empty = (Raise (SystemExit 1), mkWorld ∅ [diagnostic]).
Proof. reflexivity. Qed.

(** A system font that loads at one size only is given up for both. *)
Example half_loaded_system_font_is_dropped :
  load_fonts E_half_helvetica (new_frame, w_empty) =
    (Ok tt,
     (mkFrame None (Some (PyFont DefaultFont)) (Some (PyFont DefaultFont)),
      w_empty)).
Proof. reflexivity. Qed.

(** So is a default font whose second load raises, whatever it raises. *)
Example interrupted_default_font_is_dropped :
  load_fonts E_interrupted (new_frame, w_empty) =
    (Ok tt, (mkFrame None (Some PyNone) (Some PyNone), w_empty)).
Proof. reflexivity. Qed.

(** ** Stepping through the function *)

(** Runs the first statement of a sequence. *)
Ltac step := unfold mbind at 1, M_bind at 1.

Lemma load_fonts_spec (E : Env) (fr : Frame) (w : World) :
  load_fonts E (fr, w) =
    (Ok tt, (mkFrame (img fr) (Some (fst (tier_fonts (font_tier E))))
                     (Some (snd (tier_fonts (font_tier E)))), w)).
Proof.
  unfold load_fonts, font_tier, try_except, ImageFont_truetype,
    ImageFont_load_default, mbind, M_bind, mret, M_ret, raise.
  destruct (truetype_raises E helvetica 24);
    destruct (truetype_raises E helvetica 16);
    destruct (load_default_raises E 0%nat);
    destruct (load_default_raises E 1%nat); reflexivity.
Qed.

Lemma add_text_spec (E : Env) (width height : Z) (im : Image) (vl vs : Value)
    (w : World) :
  add_text E width height (mkFrame (Some im) (Some vl) (Some vs), w) =
    (Ok tt,
     (mkFrame
        (Some (if truthy vl && truthy vs
               then paint im (text_ops E width height vl vs) else im))
        (Some vl) (Some vs), w)).
Proof.
  unfold add_text, draw_text, load, set_img, mbind, M_bind, mret, M_ret.
  destruct vl as [|fl]; [reflexivity|].
  destruct vs as [|fs']; [reflexivity|].
  cbn [fst snd img font_large font_small truthy andb].
  unfold paint, text_ops, text_width.
  cbn [im_mode im_size im_color im_texts].
  rewrite <- !app_assoc. reflexivity.
Qed.

Lemma body_spec (E : Env) (w : World) :
  create_dmg_background_body E (new_frame, w) =
    let fr := mkFrame (Some (canvas E))
                (Some (fst (tier_fonts (font_tier E))))
                (Some (snd (tier_fonts (font_tier E)))) in
    match open_for_writing output_path w with
    | Some e => (Raise e, (fr, w))
    | None =>
        (Ok output_path,
         (fr, mkWorld (<[output_path := File "PNG" (canvas E)]> (fs w))
                (stdout w ++ report)))
    end.
Proof.
  unfold create_dmg_background_body.
  step. cbn [set_img new_frame fst snd img font_large font_small].
  step. rewrite load_fonts_spec. cbn [img].
  step. rewrite add_text_spec.
  fold (canvas E).
  unfold mbind, M_bind, load, in_world, Image_save, print, mret, M_ret.
  cbn [fst snd img].
  destruct (open_for_writing output_path w); [reflexivity|].
  cbn [fst snd fs stdout]. rewrite <- app_assoc. reflexivity.
Qed.

Lemma call_spec (E : Env) (w : World) :
  create_dmg_background E w =
    match open_for_writing output_path w with
    | Some e => (Raise e, w)
    | None =>
        (Ok output_path,
         mkWorld (<[output_path := File "PNG" (canvas E)]> (fs w))
           (stdout w ++ report))
    end.
Proof.
  unfold create_dmg_background. rewrite body_spec. cbv zeta.
  destruct (open_for_writing output_path w); reflexivity.
Qed.

Lemma final_img_spec (E : Env) (w : World) : final_img E w = Some (canvas E).
Proof.
  unfold final_img. rewrite body_spec. cbv zeta.
  destruct (open_for_writing output_path w); reflexivity.
Qed.

Lemma canvas_mode_size (E : Env) :
  im_mode (canvas E) = "RGB" /\ im_size (canvas E) = (800, 450).
Proof. unfold canvas. destruct (_ && _); split; reflexivity. Qed.

Lemma canvas_texts (E : Env) :
  im_texts (canvas E) =
    match font_tier E with
    | NoFont => []
    | t => text_ops E 800 450 (fst (tier_fonts t)) (snd (tier_fonts t))
    end.
Proof. unfold canvas. destruct (font_tier E); reflexivity. Qed.

Lemma canvas_no_font (E : Env) : font_tier E = NoFont -> canvas E = blank.
Proof. intros Ht. unfold canvas. rewrite Ht. reflexivity. Qed.

Lemma tier_fonts_same_tier (t : Tier) :
  tier_of (fst (tier_fonts t)) = t /\ tier_of (snd (tier_fonts t)) = t.
Proof. destruct t; split; reflexivity. Qed.

Lemma text_width_measured (E : Env) (text : string) (v : Value) :
  text_width E text v = measured_width E (font_of v) text.
Proof.
  unfold text_width, measured_width, draw_textbbox, bbox_right, bbox_left.
  destruct (measure E (font_of v) text) as [[[l t] r] b]. cbn [fst snd]. lia.
Qed.

(** ** The file system around the output path *)

Lemma has_sep_app (d f : string) : has_sep (d +:+ "/" +:+ f) = true.
Proof.
  induction d as [|c d IH]; simpl in *; [reflexivity|].
  destruct (Ascii.eqb c "/"); [reflexivity | exact IH].
Qed.

(** [dirname] gives back the directory a file name was joined to. *)
Lemma dirname_join (d f : string) :
  has_sep f = false -> dirname (d +:+ "/" +:+ f) = d.
Proof.
  intros Hf. induction d as [|c d IH].
  - change (dirname (String "/" f) = "").
    cbn [dirname]. rewrite Hf. reflexivity.
  - change (dirname (String c (d +:+ "/" +:+ f)) = String c d).
    cbn [dirname]. rewrite has_sep_app, IH. reflexivity.
Qed.

Lemma dirname_output_path : dirname output_path = "scripts".
Proof. apply (dirname_join "scripts" "dmg-background.png"). reflexivity. Qed.

Lemma scripts_ne_output : "scripts" ≠ output_path.
Proof. discriminate. Qed.

(** Opening the output file once [scripts] is a directory. *)
Lemma open_in_scripts (m : gmap string Node) (out : list string) :
  m !! "scripts" = Some Dir ->
  open_for_writing output_path (mkWorld m out) =
    match m !! output_path with
    | Some Dir => Some IsADirectoryError
    | _ => None
    end.
Proof.
  intros Hdir. unfold open_for_writing. rewrite dirname_output_path.
  cbn [String.eqb Ascii.eqb fs]. rewrite Hdir. reflexivity.
Qed.

Lemma open_without_scripts (w : World) :
  fs w !! "scripts" = None ->
  open_for_writing output_path w = Some FileNotFoundError.
Proof.
  intros Hnone. unfold open_for_writing. rewrite dirname_output_path.
  cbn [String.eqb Ascii.eqb]. rewrite Hnone. reflexivity.
Qed.

(** ** Stepping through the program *)

Lemma imports_spec (E : Env) (w : World) :
  imports E w =
    match import_PIL E with
    | None => (Ok tt, w)
    | Some e =>
        if is_ImportError e
        then (Raise (SystemExit 1), mkWorld (fs w) (stdout w ++ [diagnostic]))
        else (Raise e, w)
    end.
Proof.
  unfold imports, try_except, print, exit_, raise, mbind, M_bind, mret, M_ret.
  destruct (import_PIL E) as [e|]; [|reflexivity].
  destruct (is_ImportError e); reflexivity.
Qed.

Lemma main_import_fails (E : Env) (w : World) (e : exn) :
  import_PIL E = Some e ->
  main E w =
    if is_ImportError e
    then (Raise (SystemExit 1), mkWorld (fs w) (stdout w ++ [diagnostic]))
    else (Raise e, w).
Proof.
  intros Himp. unfold main. step.
  rewrite imports_spec, Himp. destruct (is_ImportError e); reflexivity.
Qed.

Lemma main_import_raises (E : Env) (w : World) (e : exn) :
  import_PIL E = Some e -> exists e', fst (main E w) = Raise e'.
Proof.
  intros Himp. rewrite (main_import_fails E w e Himp).
  destruct (is_ImportError e); eauto.
Qed.

Section ImportSucceeded.

Variable E : Env.
Hypothesis import_ok : import_PIL E = None.

(** The [__main__] block, once the imports went through. *)
Lemma main_block_spec (w : World) :
  main E w =
    if taken_by_file w "scripts" then (Raise FileExistsError, w)
    else
      let m := <["scripts" := Dir]> (fs w) in
      if dir_at w output_path
      then (Raise IsADirectoryError, mkWorld m (stdout w))
      else
        (Ok tt,
         mkWorld (<[output_path := File "PNG" (canvas E)]> m)
           (stdout w ++ report ++ farewell)).
Proof.
  destruct w as [m out]. unfold main, taken_by_file, dir_at.
  step. rewrite imports_spec, import_ok.
  step. unfold os_makedirs. cbn [fs stdout].
  assert (Hopen : open_for_writing output_path
                    (mkWorld (<["scripts" := Dir]> m) out) =
                  match m !! output_path with
                  | Some Dir => Some IsADirectoryError
                  | _ => None
                  end).
  { rewrite open_in_scripts by apply lookup_insert_eq.
    rewrite lookup_insert_ne by apply scripts_ne_output. reflexivity. }
  destruct (m !! "scripts") as [[|fmt im|]|] eqn:Hs; cbn [is_dir andb negb];
    [rewrite <- (insert_id m "scripts" Dir Hs) at 1 | reflexivity
    | reflexivity | ];
    cbv zeta; step;
    rewrite call_spec, Hopen; cbn [fs stdout];
    (destruct (m !! output_path) as [[|fmt' im'|]|]; cbn [is_dir];
     [reflexivity| | |];
     unfold mbind, M_bind, print; cbn [fs stdout];
     rewrite <- !app_assoc; reflexivity).
Qed.


End ImportSucceeded.

Lemma main_result_irrelevant_scripts (E : Env) (m : gmap string Node)
    (out : list string) :
  main E (mkWorld (<["scripts" := Dir]> m) out) =
    match import_PIL E with
    | None => main E (mkWorld (delete "scripts" m) out)
    | Some e =>
        (fst (main E (mkWorld (delete "scripts" m) out)),
         mkWorld (<["scripts" := Dir]> m)
           (stdout (snd (main E (mkWorld (delete "scripts" m) out)))))
    end.
Proof.
  destruct (import_PIL E) as [e|] eqn:Himp.
  - rewrite !(main_import_fails E _ e Himp).
    destruct (is_ImportError e); reflexivity.
  - rewrite !(main_block_spec E Himp _). unfold taken_by_file, dir_at.
    cbn [fs stdout].
    rewrite lookup_insert_eq, lookup_delete_eq.
    rewrite lookup_insert_ne by apply scripts_ne_output.
    rewrite lookup_delete_ne by apply scripts_ne_output.
    cbn [is_dir negb]. cbv zeta.
    rewrite insert_insert_eq, insert_delete_eq. reflexivity.
Qed.

(** ** The written file *)

(** C1: every run of the program that completes normally leaves at
    scripts/dmg-background.png a PNG file holding an RGB image of exactly
    800 x 450 pixels; the environment is arbitrary, so this holds whichever
    font tier was taken, the tier without font included. *)
Theorem completed_run_writes_800x450_rgb_png (E : Env) (w : World) :
  fst (main E w) = Ok tt ->
  exists im,
    fs (snd (main E w)) !! output_path = Some (File "PNG" im)
    /\ im_mode im = "RGB" /\ im_size im = (800, 450).
Proof.
  intros Hok. destruct (import_PIL E) as [e|] eqn:Himp.
  - destruct (main_import_raises E w e Himp) as [e' He']. congruence.
  - rewrite (main_block_spec E Himp w) in Hok |- *.
    destruct (taken_by_file w "scripts"); [discriminate|]. cbv zeta in *.
    destruct (dir_at w output_path); [discriminate|].
    exists (canvas E). cbn [snd fs]. rewrite lookup_insert_eq.
    split; [reflexivity | apply canvas_mode_size].
Qed.

Lemma completed_run_witness :
  fst (main E_no_font w_empty) = Ok tt
  /\ exists im,
       fs (snd (main E_no_font w_empty)) !! output_path = Some (File "PNG" im)
       /\ im_mode im = "RGB" /\ im_size im = (800, 450).
Proof.
  split; [vm_compute; reflexivity|].
  apply (completed_run_writes_800x450_rgb_png E_no_font w_empty).
  vm_compute; reflexivity.
Defined.

(** ** Font resolution *)

(** C2: font resolution is the ordered fallback of [font_tier]: the named
    system font at 24pt and 16pt, else the library's default font for
    both, else no font.  Whatever the loading calls raise, the block ends
    normally with both names bound, and the only exception a caller of
    the function can see is one of the save step. *)
Theorem font_resolution_is_ordered_fallback (E : Env) (fr : Frame) (w : World) :
  load_fonts E (fr, w) =
    (Ok tt, (mkFrame (img fr) (Some (fst (tier_fonts (font_tier E))))
                     (Some (snd (tier_fonts (font_tier E)))), w))
  /\ fst (create_dmg_background E w) =
       match open_for_writing output_path w with
       | Some e => Raise e
       | None => Ok output_path
       end.
Proof.
  split; [apply load_fonts_spec|].
  rewrite call_spec. destruct (open_for_writing output_path w); reflexivity.
Qed.

(** ** The run without font *)

(** C3: with no font resolved the text drawing is skipped and the image
    handed to the save step is the blank 800 x 450 canvas in the fill
    colour.  The run still completes with exit code 0: wherever a run of
    the program completes, with whatever fonts, the run without font
    completes as well, prints the same lines and leaves the same file
    system, but for the image, which is that blank canvas. *)
Theorem no_font_run_still_completes (E : Env) (w : World) :
  import_PIL E = None ->
  font_tier E = NoFont ->
  final_img E w = Some (mkImage "RGB" (800, 450) "#f5f5f7" [])
  /\ (forall E',
        fst (main E' w) = Ok tt ->
        fst (main E w) = Ok tt
        /\ exit_status (fst (main E w)) = 0
        /\ stdout (snd (main E w)) = stdout (snd (main E' w))
        /\ fs (snd (main E w)) =
             <[output_path := File "PNG" (mkImage "RGB" (800, 450) "#f5f5f7" [])]>
               (fs (snd (main E' w))))
  /\ (fst (main E w) = Ok tt ->
      fs (snd (main E w)) !! output_path =
        Some (File "PNG" (mkImage "RGB" (800, 450) "#f5f5f7" []))).
Proof.
  intros Himp Ht. rewrite final_img_spec, (canvas_no_font E Ht).
  split; [reflexivity|]. split.
  - intros E' Hok'.
    destruct (import_PIL E') as [e|] eqn:Himp'.
    { destruct (main_import_raises E' w e Himp') as [e' He']. congruence. }
    rewrite (main_block_spec E' Himp' w) in Hok' |- *.
    rewrite (main_block_spec E Himp w).
    destruct (taken_by_file w "scripts"); [discriminate|]. cbv zeta in *.
    destruct (dir_at w output_path); [discriminate|].
    cbn [fst snd fs stdout exit_status].
    rewrite (canvas_no_font E Ht), insert_insert_eq.
    repeat split; reflexivity.
  - rewrite (main_block_spec E Himp w).
    destruct (taken_by_file w "scripts"); [discriminate|]. cbv zeta.
    destruct (dir_at w output_path); [discriminate|].
    intros _. cbn [snd fs]. rewrite lookup_insert_eq, (canvas_no_font E Ht).
    reflexivity.
Qed.

Lemma no_font_run_witness :
  import_PIL E_no_font = None
  /\ font_tier E_no_font = NoFont
  /\ fst (main E_mac w_empty) = Ok tt
  /\ fst (main E_no_font w_empty) = Ok tt
  /\ exit_status (fst (main E_no_font w_empty)) = 0
  /\ fs (snd (main E_no_font w_empty)) !! output_path =
       Some (File "PNG" (mkImage "RGB" (800, 450) "#f5f5f7" [])).
Proof.
  assert (Hmac : fst (main E_mac w_empty) = Ok tt) by (vm_compute; reflexivity).
  split; [reflexivity|]. split; [reflexivity|]. split; [exact Hmac|].
  destruct (no_font_run_still_completes E_no_font w_empty eq_refl eq_refl)
    as (_ & Hstill & Hout).
  destruct (Hstill E_mac Hmac) as (Hok & Hzero & _).
  split; [exact Hok|]. split; [exact Hzero|]. exact (Hout Hok).
Defined.

(** ** Text placement *)

(** C4: when a font is resolved, each line starts at
    x = (800 - measured width) / 2, which leaves margins on its two sides
    that differ by at most one pixel, the shadow copy one pixel further;
    line 1 sits at y = 450 - 120 and line 2 at that plus 35. *)
Theorem text_is_centred_at_fixed_heights (E : Env) (w : World) :
  font_tier E <> NoFont ->
  exists im,
    final_img E w = Some im
    /\ let f1 := fst (tier_font_pair (font_tier E)) in
       let f2 := snd (tier_font_pair (font_tier E)) in
       let w1 := measured_width E f1 text1 in
       let w2 := measured_width E f2 text2 in
       let x1 := (800 - w1) / 2 in
       let x2 := (800 - w2) / 2 in
       let y1 := 450 - 120 in
       let y2 := y1 + 35 in
       map (fun op => (t_text op, t_xy op)) (im_texts im) =
         [ (text1, (x1 + 1, y1 + 1)); (text1, (x1, y1));
           (text2, (x2 + 1, y2 + 1)); (text2, (x2, y2)) ]
       /\ 0 <= (800 - (x1 + w1)) - x1 <= 1
       /\ 0 <= (800 - (x2 + w2)) - x2 <= 1.
Proof.
  intros Hfont. exists (canvas E). split; [apply final_img_spec|].
  cbv zeta. rewrite canvas_texts. unfold tier_font_pair. cbn [fst snd].
  split.
  - destruct (font_tier E) eqn:Ht; [| |congruence];
      unfold text_ops; rewrite !text_width_measured; reflexivity.
  - split.
    + pose proof (Z.div_mod (800 - measured_width E
                   (font_of (fst (tier_fonts (font_tier E)))) text1) 2).
      pose proof (Z.mod_pos_bound (800 - measured_width E
                   (font_of (fst (tier_fonts (font_tier E)))) text1) 2).
      lia.
    + pose proof (Z.div_mod (800 - measured_width E
                   (font_of (snd (tier_fonts (font_tier E)))) text2) 2).
      pose proof (Z.mod_pos_bound (800 - measured_width E
                   (font_of (snd (tier_fonts (font_tier E)))) text2) 2).
      lia.
Qed.

Lemma text_is_centred_witness :
  font_tier E_mac <> NoFont
  /\ exists im,
       final_img E_mac w_scripts_dir = Some im
       /\ map (fun op => (t_text op, t_xy op)) (im_texts im) =
            [ (text1, (239, 331)); (text1, (238, 330));
              (text2, (169, 366)); (text2, (168, 365)) ]
       /\ 0 <= (800 - (238 + 324)) - 238 <= 1
       /\ 0 <= (800 - (168 + 464)) - 168 <= 1.
Proof.
  split; [discriminate|].
  apply (text_is_centred_at_fixed_heights E_mac w_scripts_dir). discriminate.
Defined.

(** ** Shadow and text *)

(** C5: when a font is resolved, exactly four drawing calls are made, two
    per line and in this order: the copy shifted by one pixel in x and in
    y, in the lighter shade, and then the text itself at the unshifted
    position in the darker colour, so that it lies on top. *)
Theorem each_line_is_drawn_shadow_first (E : Env) (w : World) :
  font_tier E <> NoFont ->
  exists im x1 y1 x2 y2 f1 f2,
    final_img E w = Some im
    /\ im_texts im =
         [ mkTextOp (x1 + 1, y1 + 1) text1 "#cccccc" f1;
           mkTextOp (x1, y1) text1 "#333333" f1;
           mkTextOp (x2 + 1, y2 + 1) text2 "#dddddd" f2;
           mkTextOp (x2, y2) text2 "#666666" f2 ]
    /\ lighter "#cccccc" "#333333" = true
    /\ lighter "#dddddd" "#666666" = true.
Proof.
  intros Hfont. exists (canvas E).
  rewrite final_img_spec, canvas_texts.
  destruct (font_tier E); [| |congruence]; unfold text_ops;
    do 6 eexists; (split; [reflexivity|]); (split; [reflexivity|]);
    split; reflexivity.
Qed.

Lemma each_line_is_drawn_witness :
  font_tier E_no_helvetica <> NoFont
  /\ exists im x1 y1 x2 y2 f1 f2,
       final_img E_no_helvetica w_scripts_dir = Some im
       /\ im_texts im =
            [ mkTextOp (x1 + 1, y1 + 1) text1 "#cccccc" f1;
              mkTextOp (x1, y1) text1 "#333333" f1;
              mkTextOp (x2 + 1, y2 + 1) text2 "#dddddd" f2;
              mkTextOp (x2, y2) text2 "#666666" f2 ]
       /\ lighter "#cccccc" "#333333" = true
       /\ lighter "#dddddd" "#666666" = true.
Proof.
  split; [discriminate|].
  apply (each_line_is_drawn_shadow_first E_no_helvetica w_scripts_dir).
  discriminate.
Defined.

(** ** Exit status *)




(** ** The directory, present or absent *)

(** C7: take a run that finds the directory [scripts] and a run that
    differs only in that the directory is absent.  [os.makedirs] raises
    no error in either; the two runs end with the same result, print the
    same lines and leave the same file at the output path, and once the
    import went through they leave the same file system altogether.  Both
    end without error, the generated PNG at the output path, as long as
    that path is not a directory, which it cannot be where [scripts] is
    missing. *)
Theorem existing_directory_makes_no_difference (E : Env)
    (m : gmap string Node) (out : list string) :
  let present := mkWorld (<["scripts" := Dir]> m) out in
  let absent := mkWorld (delete "scripts" m) out in
  fst (os_makedirs "scripts" true present) = Ok tt
  /\ fst (os_makedirs "scripts" true absent) = Ok tt
  /\ fst (main E present) = fst (main E absent)
  /\ stdout (snd (main E present)) = stdout (snd (main E absent))
  /\ fs (snd (main E present)) !! output_path =
       fs (snd (main E absent)) !! output_path
  /\ (import_PIL E = None ->
      main E present = main E absent
      /\ (m !! output_path <> Some Dir ->
          fst (main E present) = Ok tt
          /\ exists im,
               final_img E present = Some im
               /\ fs (snd (main E present)) !! output_path =
                    Some (File "PNG" im))).
Proof.
  cbv zeta. split; [|split].
  - unfold os_makedirs. cbn [fs]. rewrite lookup_insert_eq. reflexivity.
  - unfold os_makedirs. cbn [fs]. rewrite lookup_delete_eq. reflexivity.
  - rewrite main_result_irrelevant_scripts.
    destruct (import_PIL E) as [e|] eqn:Himp.
    + cbn [fst snd stdout fs].
      split; [reflexivity|]. split; [reflexivity|]. split; [|discriminate].
      rewrite lookup_insert_ne by apply scripts_ne_output.
      rewrite (main_import_fails E _ e Himp).
      destruct (is_ImportError e); cbn [snd fs];
        rewrite lookup_delete_ne by apply scripts_ne_output; reflexivity.
    + split; [reflexivity|]. split; [reflexivity|]. split; [reflexivity|].
      intros _. split; [reflexivity|]. intros Hout.
      rewrite (main_block_spec E Himp _). unfold taken_by_file, dir_at.
      cbn [fs stdout]. rewrite lookup_delete_eq.
      rewrite lookup_delete_ne by apply scripts_ne_output. cbv zeta.
      assert (Hd : match m !! output_path with
                   | Some n => is_dir n
                   | None => false
                   end = false).
      { destruct (m !! output_path) as [[| |]|]; try reflexivity.
        congruence. }
      rewrite Hd. split; [reflexivity|].
      exists (canvas E). split; [apply final_img_spec|].
      cbn [snd fs]. apply lookup_insert_eq.
Qed.

Lemma existing_directory_witness :
  import_PIL E_mac = None
  /\ (∅ : gmap string Node) !! output_path <> Some Dir
  /\ main E_mac (mkWorld (<["scripts" := Dir]> ∅) []) =
       main E_mac (mkWorld (delete "scripts" ∅) [])
  /\ fst (main E_mac (mkWorld (<["scripts" := Dir]> ∅) [])) = Ok tt.
Proof.
  split; [reflexivity|]. split; [rewrite lookup_empty; discriminate|].
  destruct (existing_directory_makes_no_difference E_mac ∅ [])
    as (_ & _ & _ & _ & _ & H).
  destruct (H eq_refl) as [Heq Hrun]. split; [exact Heq|].
  apply Hrun. rewrite lookup_empty. discriminate.
Defined.

(** ** The fonts of the two lines *)

(** C8, as the code has it: the fonts of the two lines follow the tier.
    With the system font, line 1 is drawn with the Helvetica file at 24pt
    and line 2 with the same file and the same face at 16pt; with the
    library's default font, both lines are drawn with that one font; with
    no font, neither line is drawn. *)
Theorem line_fonts_follow_the_tier (E : Env) (w : World) :
  exists im,
    final_img E w = Some im
    /\ match font_tier E with
       | SystemFont =>
           line_fonts text1 im =
             [FreeTypeFont helvetica 24 0; FreeTypeFont helvetica 24 0]
           /\ line_fonts text2 im =
                [FreeTypeFont helvetica 16 0; FreeTypeFont helvetica 16 0]
       | LibraryDefault =>
           line_fonts text1 im = [DefaultFont; DefaultFont]
           /\ line_fonts text2 im = [DefaultFont; DefaultFont]
       | NoFont => line_fonts text1 im = [] /\ line_fonts text2 im = []
       end.
Proof.
  exists (canvas E). split; [apply final_img_spec|].
  unfold line_fonts. rewrite canvas_texts.
  destruct (font_tier E); split; reflexivity.
Qed.

(** C8 as stated fails: where the Helvetica file cannot be opened, both
    lines are drawn, each with the library's default font: line 1 is not
    set at 24pt, nor line 2 at 16pt, and the two use one and the same
    font. *)
Lemma default_font_lines_share_one_font :
  font_tier E_no_helvetica = LibraryDefault
  /\ exists im,
       final_img E_no_helvetica w_scripts_dir = Some im
       /\ line_fonts text1 im = [DefaultFont; DefaultFont]
       /\ line_fonts text2 im = [DefaultFont; DefaultFont]
       /\ map font_pt (line_fonts text1 im) <> [Some 24; Some 24]
       /\ map font_pt (line_fonts text2 im) <> [Some 16; Some 16].
Proof.
  split; [reflexivity|].
  exists (canvas E_no_helvetica). split; [apply final_img_spec|].
  repeat split; try reflexivity; discriminate.
Qed.

(** ** The two handles *)

(** C9: after font resolution both names are bound, the large handle is
    None exactly when the small one is, and both come from one tier;
    hence the finished image shows both lines or neither. *)
Theorem font_handles_go_together (E : Env) (fr : Frame) (w : World) :
  exists vl vs im,
    font_large (fst (snd (load_fonts E (fr, w)))) = Some vl
    /\ font_small (fst (snd (load_fonts E (fr, w)))) = Some vs
    /\ (vl = PyNone <-> vs = PyNone)
    /\ tier_of vl = tier_of vs
    /\ final_img E w = Some im
    /\ (times_drawn text1 im = 0%nat /\ times_drawn text2 im = 0%nat
        \/ times_drawn text1 im = 2%nat /\ times_drawn text2 im = 2%nat).
Proof.
  rewrite load_fonts_spec, final_img_spec. cbn [fst snd font_large font_small].
  exists (fst (tier_fonts (font_tier E))), (snd (tier_fonts (font_tier E))),
    (canvas E).
  split; [reflexivity|]. split; [reflexivity|].
  unfold times_drawn, line_fonts. rewrite canvas_texts.
  destruct (font_tier E); cbn [tier_fonts fst snd tier_of];
    (split; [split; congruence|]); (split; [reflexivity|]);
    (split; [reflexivity|]).
  - right. split; reflexivity.
  - right. split; reflexivity.
  - left. split; reflexivity.
Qed.

(** ** The function on its own *)

(** C10: a call of [create_dmg_background] leaves the entry [scripts] as it
    found it, so it never creates the directory; called where [scripts]
    does not exist, it builds its image and then raises FileNotFoundError
    from the save, with nothing written or printed.  The directory is
    created by [os.makedirs] in the main block, ahead of the call. *)
Theorem function_does_not_create_directory (E : Env) (w : World) :
  fs (snd (create_dmg_background E w)) !! "scripts" = fs w !! "scripts"
  /\ (fs w !! "scripts" = None ->
      create_dmg_background E w = (Raise FileNotFoundError, w)
      /\ exists im, final_img E w = Some im)
  /\ (import_PIL E = None ->
      fs w !! "scripts" = None ->
      fs (snd (os_makedirs "scripts" true w)) !! "scripts" = Some Dir
      /\ fs (snd (main E w)) !! "scripts" = Some Dir).
Proof.
  split; [|split].
  - rewrite call_spec. destruct (open_for_writing output_path w).
    + reflexivity.
    + cbn [snd fs]. apply lookup_insert_ne. intros H.
      apply scripts_ne_output. symmetry. exact H.
  - intros Hnone. rewrite call_spec, (open_without_scripts w Hnone).
    split; [reflexivity|]. exists (canvas E). apply final_img_spec.
  - intros Himp Hnone. split.
    + unfold os_makedirs. rewrite Hnone. cbn [snd fs].
      apply lookup_insert_eq.
    + rewrite (main_block_spec E Himp w). unfold taken_by_file.
      rewrite Hnone. cbv zeta.
      destruct (dir_at w output_path); cbn [snd fs].
      * apply lookup_insert_eq.
      * rewrite lookup_insert_ne by (intros H; apply scripts_ne_output;
                                       symmetry; exact H).
        apply lookup_insert_eq.
Qed.

Lemma function_alone_witness :
  fs w_empty !! "scripts" = None
  /\ import_PIL E_mac = None
  /\ create_dmg_background E_mac w_empty = (Raise FileNotFoundError, w_empty)
  /\ fs (snd (main E_mac w_empty)) !! "scripts" = Some Dir.
Proof.
  split; [reflexivity|]. split; [reflexivity|].
  destruct (function_does_not_create_directory E_mac w_empty)
    as (_ & Hcall & Hmain).
  split.
  - apply Hcall. reflexivity.
  - apply Hmain; reflexivity.
Defined.

(** ** Re-runs, untouched paths and failure modes *)

Lemma output_ne_scripts : output_path ≠ "scripts".
Proof. discriminate. Qed.

(** The four ways a run can go. *)
Lemma main_cases (E : Env) (w : World) :
  (exists e,
     import_PIL E = Some e
     /\ main E w =
          if is_ImportError e
          then (Raise (SystemExit 1), mkWorld (fs w) (stdout w ++ [diagnostic]))
          else (Raise e, w))
  \/ (import_PIL E = None /\ taken_by_file w "scripts" = true
      /\ main E w = (Raise FileExistsError, w))
  \/ (import_PIL E = None /\ taken_by_file w "scripts" = false
      /\ dir_at w output_path = true
      /\ main E w =
           (Raise IsADirectoryError,
            mkWorld (<["scripts" := Dir]> (fs w)) (stdout w)))
  \/ (import_PIL E = None /\ taken_by_file w "scripts" = false
      /\ dir_at w output_path = false
      /\ main E w =
           (Ok tt,
            mkWorld (<[output_path := File "PNG" (canvas E)]>
                       (<["scripts" := Dir]> (fs w)))
              (stdout w ++ report ++ farewell))).
Proof.
  destruct (import_PIL E) as [e|] eqn:Himp.
  - left. exists e. split; [reflexivity|]. apply (main_import_fails E w e Himp).
  - right. rewrite (main_block_spec E Himp w).
    destruct (taken_by_file w "scripts"); [left; auto|]. cbv zeta.
    destruct (dir_at w output_path); right; [left | right]; auto.
Qed.

Lemma taken_after_makedirs (m : gmap string Node) (out : list string) :
  taken_by_file (mkWorld (<["scripts" := Dir]> m) out) "scripts" = false.
Proof. unfold taken_by_file. cbn [fs]. rewrite lookup_insert_eq. reflexivity. Qed.

Lemma dir_at_after_makedirs (m : gmap string Node) (out out' : list string) :
  dir_at (mkWorld (<["scripts" := Dir]> m) out) output_path =
  dir_at (mkWorld m out') output_path.
Proof.
  unfold dir_at. cbn [fs].
  rewrite lookup_insert_ne by apply scripts_ne_output. reflexivity.
Qed.

Lemma taken_after_save (m : gmap string Node) (n : Node) (out : list string) :
  taken_by_file (mkWorld (<[output_path := n]> (<["scripts" := Dir]> m)) out)
    "scripts" = false.
Proof.
  unfold taken_by_file. cbn [fs].
  rewrite lookup_insert_ne by apply output_ne_scripts.
  rewrite lookup_insert_eq. reflexivity.
Qed.

Lemma dir_at_after_save (m : gmap string Node) (fmt : string) (im : Image)
    (out : list string) :
  dir_at (mkWorld (<[output_path := File fmt im]> m) out) output_path = false.
Proof. unfold dir_at. cbn [fs]. rewrite lookup_insert_eq. reflexivity. Qed.

(** Writing the image again over the result of a run changes nothing. *)
Lemma save_twice (m : gmap string Node) (n : Node) :
  <[output_path := n]> (<["scripts" := Dir]>
     (<[output_path := n]> (<["scripts" := Dir]> m))) =
  <[output_path := n]> (<["scripts" := Dir]> m).
Proof.
  apply map_eq. intros i. rewrite !lookup_insert.
  repeat case_decide; congruence.
Qed.

(** X1: running the program again on what a run left behind ends the same
    way, prints the same lines once more and leaves the file system as
    the first run left it. *)
Theorem second_run_repeats_the_first (E : Env) (w : World) :
  exists lines,
    stdout (snd (main E w)) = (stdout w ++ lines)%list
    /\ fst (main E (snd (main E w))) = fst (main E w)
    /\ fs (snd (main E (snd (main E w)))) = fs (snd (main E w))
    /\ stdout (snd (main E (snd (main E w)))) =
         (stdout (snd (main E w)) ++ lines)%list.
Proof.
  destruct w as [m out].
  destruct (main_cases E (mkWorld m out))
    as [(e & Himp & Hrun) | [(Himp & Ht & Hrun) | [(Himp & Ht & Hd & Hrun)
                                                  | (Himp & Ht & Hd & Hrun)]]];
    rewrite Hrun; cbn [fs stdout] in *.
  - destruct (is_ImportError e) eqn:Hc; cbn [fst snd].
    + exists [diagnostic]. rewrite (main_import_fails E _ e Himp), Hc.
      repeat split; reflexivity.
    + exists []. rewrite Hrun. cbn [fst snd stdout].
      rewrite app_nil_r. repeat split; reflexivity.
  - exists []. cbn [fst snd]. rewrite Hrun. cbn [fst snd stdout].
    rewrite app_nil_r. repeat split; reflexivity.
  - exists []. cbn [fst snd]. rewrite (main_block_spec E Himp).
    rewrite taken_after_makedirs, (dir_at_after_makedirs m out out), Hd.
    cbv zeta. cbn [fst snd fs stdout].
    rewrite insert_insert_eq, app_nil_r. repeat split; reflexivity.
  - exists (report ++ farewell)%list. cbn [fst snd].
    rewrite (main_block_spec E Himp).
    rewrite taken_after_save, dir_at_after_save. cbv zeta.
    cbn [fst snd fs stdout]. rewrite save_twice. repeat split; reflexivity.
Qed.

(** X2: a run changes nothing outside its two paths: any path other than
    the directory and the output file holds after the run what it held
    before, however the run ends. *)
Theorem other_paths_are_untouched (E : Env) (w : World) (p : string) :
  p <> "scripts" ->
  p <> output_path ->
  fs (snd (main E w)) !! p = fs w !! p.
Proof.
  intros Hs Ho.
  destruct (main_cases E w)
    as [(e & Himp & Hrun) | [(Himp & Ht & Hrun) | [(Himp & Ht & Hd & Hrun)
                                                  | (Himp & Ht & Hd & Hrun)]]];
    rewrite Hrun.
  - destruct (is_ImportError e); reflexivity.
  - reflexivity.
  - cbn [snd fs]. apply lookup_insert_ne. congruence.
  - cbn [snd fs]. rewrite !lookup_insert_ne by congruence. reflexivity.
Qed.

Lemma other_paths_witness :
  "README.md" <> "scripts"
  /\ "README.md" <> output_path
  /\ fs (snd (main E_mac w_project)) !! "README.md" = fs w_project !! "README.md".
Proof.
  split; [discriminate|]. split; [discriminate|].
  apply (other_paths_are_untouched E_mac w_project "README.md"); discriminate.
Defined.

(** X3: a run removes nothing and never turns a directory into a file:
    every path that existed before the run exists after it, and every
    directory is still a directory. *)
Theorem run_removes_nothing (E : Env) (w : World) (p : string) (n : Node) :
  fs w !! p = Some n ->
  is_Some (fs (snd (main E w)) !! p)
  /\ (n = Dir -> fs (snd (main E w)) !! p = Some Dir).
Proof.
  intros Hp.
  destruct (main_cases E w)
    as [(e & Himp & Hrun) | [(Himp & Ht & Hrun) | [(Himp & Ht & Hd & Hrun)
                                                  | (Himp & Ht & Hd & Hrun)]]];
    rewrite Hrun.
  - destruct (is_ImportError e); cbn [snd fs]; rewrite Hp;
      split; [eauto | congruence | eauto | congruence].
  - cbn [snd]. rewrite Hp. split; [eauto | congruence].
  - cbn [snd fs]. rewrite lookup_insert. case_decide as Hk.
    + split; [eauto | reflexivity].
    + rewrite Hp. split; [eauto | congruence].
  - cbn [snd fs]. rewrite lookup_insert. case_decide as Hk.
    + split; [eauto|]. intros ->. subst p.
      unfold dir_at in Hd. rewrite Hp in Hd. discriminate.
    + rewrite lookup_insert. case_decide as Hk'.
      * split; [eauto | reflexivity].
      * rewrite Hp. split; [eauto | congruence].
Qed.

Lemma run_removes_nothing_witness :
  fs w_project !! "scripts" = Some Dir
  /\ is_Some (fs (snd (main E_no_font w_project)) !! "scripts")
  /\ (Dir = Dir -> fs (snd (main E_no_font w_project)) !! "scripts" = Some Dir).
Proof.
  split; [reflexivity|].
  apply (run_removes_nothing E_no_font w_project "scripts" Dir). reflexivity.
Defined.



(** X5: the program prints only after the file is written: if a run past
    the import has printed anything, the PNG of its final image is at the
    output path; and a run stopped by the error of [os.makedirs] or of the
    save has printed nothing and has left the output path as it was. *)
Theorem lines_are_printed_after_the_write (E : Env) (w : World) :
  import_PIL E = None ->
  (stdout (snd (main E w)) <> stdout w ->
   exists im,
     final_img E w = Some im
     /\ fs (snd (main E w)) !! output_path = Some (File "PNG" im))
  /\ (fst (main E w) = Raise FileExistsError
      \/ fst (main E w) = Raise IsADirectoryError ->
      stdout (snd (main E w)) = stdout w
      /\ fs (snd (main E w)) !! output_path = fs w !! output_path).
Proof.
  intros Himp.
  destruct (main_cases E w)
    as [(e & Himp' & Hrun) | [(_ & Ht & Hrun) | [(_ & Ht & Hd & Hrun)
                                                | (_ & Ht & Hd & Hrun)]]];
    [congruence | | |]; rewrite Hrun; cbn [fst snd fs stdout].
  - split; [congruence|]. intros _. split; reflexivity.
  - split; [congruence|]. intros _. split; [reflexivity|].
    apply lookup_insert_ne, scripts_ne_output.
  - split.
    + intros _. exists (canvas E).
      split; [apply final_img_spec | apply lookup_insert_eq].
    + intros [H|H]; discriminate.
Qed.

Lemma lines_are_printed_witness :
  import_PIL E_no_helvetica = None
  /\ stdout (snd (main E_no_helvetica w_project)) <> stdout w_project
  /\ exists im,
       final_img E_no_helvetica w_project = Some im
       /\ fs (snd (main E_no_helvetica w_project)) !! output_path =
            Some (File "PNG" im).
Proof.
  split; [reflexivity|].
  assert (Hprinted :
            stdout (snd (main E_no_helvetica w_project)) <> stdout w_project)
    by (vm_compute; discriminate).
  split; [exact Hprinted|].
  apply (proj1 (lines_are_printed_after_the_write E_no_helvetica w_project
                  eq_refl)).
  exact Hprinted.
Defined.

(** X6: the guard of the imports catches ImportError only: any other
    exception of the import leaves the program as it is, without the
    diagnostic line and before anything is created. *)
Theorem other_import_errors_propagate (E : Env) (w : World) (e : exn) :
  import_PIL E = Some e ->
  is_ImportError e = false ->
  main E w = (Raise e, w).
Proof.
  intros Himp Hc. rewrite (main_import_fails E w e Himp), Hc. reflexivity.
Qed.

Lemma other_import_errors_witness :
  import_PIL E_broken_pil = Some OSError
  /\ is_ImportError OSError = false
  /\ main E_broken_pil w_project = (Raise OSError, w_project).
Proof.
  split; [reflexivity|]. split; [reflexivity|].
  apply (other_import_errors_propagate E_broken_pil w_project OSError);
    reflexivity.
Defined.

(** X7: what the output path held before, an older image or any other
    file, has no influence on a run: it ends the same way and prints the
    same lines as where the path is free, and when it ends normally it
    leaves the same file system, the old content replaced. *)
Theorem old_output_is_overwritten (E : Env) (m : gmap string Node)
    (out : list string) (n : Node) :
  is_dir n = false ->
  let had := mkWorld (<[output_path := n]> m) out in
  let free := mkWorld (delete output_path m) out in
  fst (main E had) = fst (main E free)
  /\ stdout (snd (main E had)) = stdout (snd (main E free))
  /\ (fst (main E had) = Ok tt -> snd (main E had) = snd (main E free)).
Proof.
  intros Hn. cbv zeta. destruct (import_PIL E) as [e|] eqn:Himp.
  - rewrite !(main_import_fails E _ e Himp).
    destruct (is_ImportError e); cbn [fst snd stdout];
      (split; [reflexivity|]); (split; [reflexivity|]); discriminate.
  - rewrite !(main_block_spec E Himp). unfold taken_by_file, dir_at.
    cbn [fs stdout].
    rewrite lookup_insert_eq, lookup_delete_eq, Hn.
    rewrite lookup_insert_ne by apply output_ne_scripts.
    rewrite lookup_delete_ne by apply output_ne_scripts.
    destruct (m !! "scripts") as [ns|]; [destruct (negb (is_dir ns))|];
      cbv zeta; cbn [fst snd stdout];
      (split; [reflexivity|]); (split; [reflexivity|]);
      try discriminate;
      intros _; f_equal; apply map_eq; intros i;
      rewrite !lookup_insert; repeat case_decide; try reflexivity;
      rewrite ?lookup_insert_ne, ?lookup_delete_ne by congruence;
      reflexivity.
Qed.

Lemma old_output_witness :
  is_dir Other = false
  /\ fst (main E_mac (mkWorld (<[output_path := Other]> (fs w_scripts_dir)) [])) =
       fst (main E_mac (mkWorld (delete output_path (fs w_scripts_dir)) []))
  /\ stdout (snd (main E_mac
                    (mkWorld (<[output_path := Other]> (fs w_scripts_dir)) []))) =
       stdout (snd (main E_mac
                      (mkWorld (delete output_path (fs w_scripts_dir)) [])))
  /\ (fst (main E_mac (mkWorld (<[output_path := Other]> (fs w_scripts_dir)) [])) =
        Ok tt ->
      snd (main E_mac (mkWorld (<[output_path := Other]> (fs w_scripts_dir)) [])) =
      snd (main E_mac (mkWorld (delete output_path (fs w_scripts_dir)) []))).
Proof.
  split; [reflexivity|].
  apply (old_output_is_overwritten E_mac (fs w_scripts_dir) [] Other).
  reflexivity.
Defined.

Lemma half_bounds (a : Z) : 2 * (a / 2) <= a <= 2 * (a / 2) + 1.
Proof.
  pose proof (Z.div_mod a 2). pose proof (Z.mod_pos_bound a 2). lia.
Qed.

(** X8: the script neither clamps nor shrinks a line.  The box a line is
    drawn in has its measured width, so a line wider than 800 pixels
    cannot lie within the canvas.  For a font whose boxes start at the
    anchor, a line at most 800 wide lies within the canvas and a wider one
    starts at a negative x; the shadow copy of a line narrower than 800
    lies within the canvas too. *)
Theorem lines_are_not_clamped (E : Env) (w : World) :
  font_tier E <> NoFont ->
  exists im s1 t1 s2 t2,
    final_img E w = Some im
    /\ im_texts im = [s1; t1; s2; t2]
    /\ Forall
         (fun t =>
            let wd := measured_width E (t_font t) (t_text t) in
            let offset := bbox_left (measure E (t_font t) (t_text t)) in
            let left := bbox_left (drawn_box E t) in
            let right := bbox_right (drawn_box E t) in
            right - left = wd
            /\ (800 < wd -> ~ (0 <= left /\ right <= 800))
            /\ (offset = 0 -> wd <= 800 -> 0 <= left /\ right <= 800)
            /\ (offset = 0 -> 800 < wd -> left < 0))
         [t1; t2]
    /\ Forall
         (fun s =>
            let wd := measured_width E (t_font s) (t_text s) in
            let offset := bbox_left (measure E (t_font s) (t_text s)) in
            let left := bbox_left (drawn_box E s) in
            let right := bbox_right (drawn_box E s) in
            right - left = wd
            /\ (offset = 0 -> wd < 800 -> 0 <= left /\ right <= 800))
         [s1; s2].
Proof.
  intros Hfont. exists (canvas E).
  rewrite final_img_spec, canvas_texts.
  destruct (font_tier E); [| |congruence]; unfold text_ops;
    rewrite !text_width_measured; cbn [tier_fonts fst snd font_of];
    do 4 eexists; (split; [reflexivity|]); (split; [reflexivity|]);
    (split; repeat first [apply List.Forall_nil | apply List.Forall_cons]);
    cbv zeta;
    unfold drawn_box, draw_textbbox, measured_width, bbox_left, bbox_right;
    cbn [t_xy t_text t_font fst snd font_of];
    match goal with
    | |- context [measure E ?f ?t] =>
        destruct (measure E f t) as [[[l t'] r] b]
    end; cbn [fst snd];
    pose proof (half_bounds (800 - (r - l))); lia.
Qed.

Lemma lines_are_not_clamped_witness :
  font_tier E_wide <> NoFont
  /\ exists im s1 t1 s2 t2,
       final_img E_wide w_scripts_dir = Some im
       /\ im_texts im = [s1; t1; s2; t2]
       /\ Forall
            (fun t =>
               let wd := measured_width E_wide (t_font t) (t_text t) in
               let offset := bbox_left (measure E_wide (t_font t) (t_text t)) in
               let left := bbox_left (drawn_box E_wide t) in
               let right := bbox_right (drawn_box E_wide t) in
               right - left = wd
               /\ (800 < wd -> ~ (0 <= left /\ right <= 800))
               /\ (offset = 0 -> wd <= 800 -> 0 <= left /\ right <= 800)
               /\ (offset = 0 -> 800 < wd -> left < 0))
            [t1; t2]
       /\ Forall
            (fun s =>
               let wd := measured_width E_wide (t_font s) (t_text s) in
               let offset := bbox_left (measure E_wide (t_font s) (t_text s)) in
               let left := bbox_left (drawn_box E_wide s) in
               let right := bbox_right (drawn_box E_wide s) in
               right - left = wd
               /\ (offset = 0 -> wd < 800 -> 0 <= left /\ right <= 800))
            [s1; s2].
Proof.
  split; [discriminate|].
  apply (lines_are_not_clamped E_wide w_scripts_dir). discriminate.
Defined.

(** With the wide font the second line is 1160 pixels wide and starts 180
    pixels left of the canvas. *)
Example wide_second_line :
  option_map (fun im => map (fun op => fst (t_xy op)) (im_texts im))
    (final_img E_wide w_scripts_dir) = Some [131; 130; -179; -180].
Proof. reflexivity. Qed.

(** X9: the script centres the width of the measured box, not the box it
    draws: the drawn box keeps the offset of its left edge from the
    anchor, so its right margin minus its left margin is the rounding
    remainder less twice that offset.  The two margins thus differ by 0 or
    1 when the offset is 0, and by more than a pixel when the offset is
    negative or at least 2. *)
Theorem drawn_box_keeps_left_offset (E : Env) (w : World) :
  font_tier E <> NoFont ->
  exists im s1 t1 s2 t2,
    final_img E w = Some im
    /\ im_texts im = [s1; t1; s2; t2]
    /\ Forall
         (fun t =>
            let wd := measured_width E (t_font t) (t_text t) in
            let offset := bbox_left (measure E (t_font t) (t_text t)) in
            let gap :=
              (800 - bbox_right (drawn_box E t)) - bbox_left (drawn_box E t) in
            gap = (800 - wd) mod 2 - 2 * offset
            /\ (offset = 0 -> 0 <= gap <= 1)
            /\ (offset < 0 \/ 2 <= offset -> ~ (-1 <= gap <= 1)))
         [t1; t2].
Proof.
  intros Hfont. exists (canvas E).
  rewrite final_img_spec, canvas_texts.
  destruct (font_tier E); [| |congruence]; unfold text_ops;
    rewrite !text_width_measured; cbn [tier_fonts fst snd font_of];
    do 4 eexists; (split; [reflexivity|]); (split; [reflexivity|]);
    repeat first [apply List.Forall_nil | apply List.Forall_cons]; cbv zeta;
    unfold drawn_box, draw_textbbox, measured_width, bbox_left, bbox_right;
    cbn [t_xy t_text t_font fst snd font_of];
    match goal with
    | |- context [measure E ?f ?t] =>
        destruct (measure E f t) as [[[l t'] r] b]
    end; cbn [fst snd];
    pose proof (Z.mod_pos_bound (800 - (r - l)) 2);
    rewrite (Z.mod_eq (800 - (r - l)) 2) in * by lia; lia.
Qed.

Lemma drawn_box_witness :
  font_tier E_bearing <> NoFont
  /\ exists im s1 t1 s2 t2,
       final_img E_bearing w_scripts_dir = Some im
       /\ im_texts im = [s1; t1; s2; t2]
       /\ Forall
            (fun t =>
               let wd := measured_width E_bearing (t_font t) (t_text t) in
               let offset :=
                 bbox_left (measure E_bearing (t_font t) (t_text t)) in
               let gap :=
                 (800 - bbox_right (drawn_box E_bearing t))
                 - bbox_left (drawn_box E_bearing t) in
               gap = (800 - wd) mod 2 - 2 * offset
               /\ (offset = 0 -> 0 <= gap <= 1)
               /\ (offset < 0 \/ 2 <= offset -> ~ (-1 <= gap <= 1)))
            [t1; t2].
Proof.
  split; [discriminate|].
  apply (drawn_box_keeps_left_offset E_bearing w_scripts_dir). discriminate.
Defined.

(** With boxes that start three pixels right of the anchor, the drawn
    first line has 268 pixels on its left and 262 on its right. *)
Example bearing_first_line :
  option_map
    (fun im =>
       map (fun op => (bbox_left (drawn_box E_bearing op),
                       800 - bbox_right (drawn_box E_bearing op)))
         (im_texts im))
    (final_img E_bearing w_scripts_dir) =
  Some [(269, 261); (268, 262); (114, 106); (113, 107)].
Proof. reflexivity. Qed.
